(** * Hermes Python client ([examples/python_client.py])

    A shallow embedding of [HermesClient] and of the part of the [requests]
    library it calls, and the properties of the client's request
    construction, response interpretation and failure classification.

    Modelling conventions.
    - A Python [str] is a [string]; [int]s are [Z].
    - The value returned by [response.json()] is a [json] tree whose objects
      are finite maps ([gmap string json]), like Python [dict]s.
    - A Python call either returns a value or raises: [Result].  Code that
      talks to the network runs in [IO], a state-and-exception monad whose
      state is the list of requests handed to [requests] so far.
    - The remote service, the sockets and the JSON decoder are outside the
      repository.  They are parameters: [server] answers a request (given the
      requests seen before it) with a response or a transport failure, and
      [json_loads] decodes a body or reports why it cannot. *)

From Stdlib Require Import ZArith Ascii.
From stdpp Require Import gmap strings list pretty.

Local Open Scope Z_scope.
Local Open Scope string_scope.
Local Open Scope list_scope.

(** ** JSON values, as [json.loads] builds them

    [None], [bool], [int], [float] (kept as the 64 bits of the double),
    [str], [list] and [dict]. *)

#[warnings="-register-all"]
Inductive json : Type :=
  | JNull
  | JBool (b : bool)
  | JInt (n : Z)
  | JFloat (bits : Z)
  | JString (s : string)
  | JArray (l : list json)
  | JObject (m : gmap string json).

(** [v[key]] on a decoded value: [None] stands for the [KeyError] (or the
    [TypeError] on a value that is no [dict]) that Python raises. *)
Definition json_get (key : string) (v : json) : option json :=
  match v with
  | JObject m => m !! key
  | _ => None
  end.

(** ** [str.rstrip(chars)] *)

Fixpoint in_chars (a : ascii) (chars : string) : bool :=
  match chars with
  | EmptyString => false
  | String c chars' => if decide (a = c) then true else in_chars a chars'
  end.

(** Drops the longest suffix made of characters of [chars]. *)
Fixpoint rstrip (chars : string) (s : string) : string :=
  match s with
  | EmptyString => EmptyString
  | String a s' =>
      match rstrip chars s' with
      | EmptyString =>
          if in_chars a chars then EmptyString else String a EmptyString
      | String b t => String a (String b t)
      end
  end.

(** ** The [requests] library, as far as the client uses it *)

Inductive Method : Type := GET | POST.

(** What one call of [requests.get] / [requests.post] asks for.  [req_json] is
    the [json=] argument ([None]: no body), [req_headers] the [headers=]
    argument, [req_timeout] the [timeout=] argument in seconds. *)
Record Request : Type := {
  req_method : Method;
  req_url : string;
  req_json : option json;
  req_headers : list (string * string);
  req_timeout : Z
}.

(** [requests.Response]: the attributes read by [raise_for_status] and
    [json]. *)
Record Response : Type := {
  status_code : Z;
  reason : string;
  url : string;
  text : string
}.

(** The exceptions [requests.get] / [requests.post] raise when no response is
    obtained: a refused connection or a DNS failure is a [ConnectionError],
    an expired [timeout=] is a [ConnectTimeout] or a [ReadTimeout]. *)
Inductive TransportKind : Type :=
  | ConnectionError
  | ConnectTimeout
  | ReadTimeout
  | TooManyRedirects.

Record TransportFailure : Type := {
  failure_kind : TransportKind;
  failure_msg : string
}.

(** The exceptions that can leave the client.  [HTTPError] carries the
    response it was raised for ([e.response]). *)
Inductive PyExc : Type :=
  | RequestFailed (f : TransportFailure)
  | HTTPError (msg : string) (response : Response)
  | JSONDecodeError (msg : string) (doc : string).

(** [e.response] *)
Definition exc_response (e : PyExc) : option Response :=
  match e with
  | HTTPError _ r => Some r
  | RequestFailed _ | JSONDecodeError _ _ => None
  end.

(** [e.response.status_code], when there is a response *)
Definition exc_status (e : PyExc) : option Z :=
  status_code <$> exc_response e.

(** [str(e)] *)
Definition exc_message (e : PyExc) : string :=
  match e with
  | RequestFailed f => failure_msg f
  | HTTPError msg _ => msg
  | JSONDecodeError msg _ => msg
  end.

Inductive Result (A : Type) : Type :=
  | Returned (a : A)
  | Raised (e : PyExc).
Arguments Returned {A} a.
Arguments Raised {A} e.

(** State: the requests issued so far, oldest first. *)
Definition IO (A : Type) : Type := list Request → Result A * list Request.

#[export] Instance IO_ret : MRet IO := λ A a log, (Returned a, log).

#[export] Instance IO_bind : MBind IO := λ A B k c log,
  match c log with
  | (Returned a, log') => k a log'
  | (Raised e, log') => (Raised e, log')
  end.

Definition raise {A : Type} (e : PyExc) : IO A := λ log, (Raised e, log).

Section Client.

(** The decoder behind [response.json()]: the decoded value, or the
    decoder's complaint when the body is no JSON document. *)
Variable json_loads : string → string + json.

(** The world outside: what comes back for a request, given the requests
    issued before it. *)
Variable server : list Request → Request → TransportFailure + Response.

(** One HTTP exchange.  The request is recorded whether or not a response
    comes back. *)
Definition send (q : Request) : IO Response := λ log,
  match server log q with
  | inl f => (Raised (RequestFailed f), log ++ [q])
  | inr r => (Returned r, log ++ [q])
  end.

Definition requests_post (url : string) (json : json)
    (headers : list (string * string)) (timeout : Z) : IO Response :=
  send {| req_method := POST; req_url := url; req_json := Some json;
          req_headers := headers; req_timeout := timeout |}.

Definition requests_get (url : string) (timeout : Z) : IO Response :=
  send {| req_method := GET; req_url := url; req_json := None;
          req_headers := []; req_timeout := timeout |}.

(** The local [http_error_msg] of [Response.raise_for_status]. *)
Definition http_error_msg (r : Response) : string :=
  if bool_decide (400 ≤ status_code r < 500) then
    pretty (status_code r) +:+ " Client Error: " +:+ reason r
      +:+ " for url: " +:+ url r
  else if bool_decide (500 ≤ status_code r < 600) then
    pretty (status_code r) +:+ " Server Error: " +:+ reason r
      +:+ " for url: " +:+ url r
  else "".

(** [Response.raise_for_status]: raises when the message is non-empty. *)
Definition raise_for_status (r : Response) : IO () :=
  match http_error_msg r with
  | EmptyString => mret ()
  | String _ _ as msg => raise (HTTPError msg r)
  end.

(** [Response.json] *)
Definition response_json (r : Response) : IO json :=
  match json_loads (text r) with
  | inr v => mret v
  | inl msg => raise (JSONDecodeError msg (text r))
  end.

(** ** [class HermesClient] *)

Record HermesClient : Type := { base_url : string }.

Definition __init__ (base_url : string) : IO HermesClient :=
  mret {| base_url := rstrip "/" base_url |}.

Definition generate (self : HermesClient) (model prompt : string) : IO json :=
  let url := base_url self +:+ "/v1/llm/" +:+ model in
  let payload := JObject {[ "prompt" := JString prompt ]} in
  response ← requests_post url payload
               [("Content-Type", "application/json")] 60;
  raise_for_status response;;
  response_json response.

Definition status (self : HermesClient) : IO json :=
  let url := base_url self +:+ "/v1/status" in
  response ← requests_get url 10;
  raise_for_status response;;
  response_json response.

End Client.

(** ** The requests the client is expected to issue *)

Definition llm_request (self : HermesClient) (model prompt : string) : Request :=
  {| req_method := POST;
     req_url := base_url self +:+ "/v1/llm/" +:+ model;
     req_json := Some (JObject {[ "prompt" := JString prompt ]});
     req_headers := [("Content-Type", "application/json")];
     req_timeout := 60 |}.

Definition status_request (self : HermesClient) : Request :=
  {| req_method := GET;
     req_url := base_url self +:+ "/v1/status";
     req_json := None;
     req_headers := [];
     req_timeout := 10 |}.

(** What [response.raise_for_status()] followed by [return response.json()]
    makes of a response. *)
Definition outcome (json_loads : string → string + json) (r : Response)
    : Result json :=
  if bool_decide (400 ≤ status_code r < 600) then
    Raised (HTTPError (http_error_msg r) r)
  else
    match json_loads (text r) with
    | inr v => Returned v
    | inl msg => Raised (JSONDecodeError msg (text r))
    end.

(** What a caller reads with [e.response.json()["error"]], as [main] does in
    its [except requests.HTTPError] branches. *)
Definition exc_error_field (json_loads : string → string + json) (e : PyExc)
    : option json :=
  r ← exc_response e;
  match json_loads (text r) with
  | inr v => json_get "error" v
  | inl _ => None
  end.

(** [k] copies of the character [a] *)
Fixpoint str_repeat (a : ascii) (k : nat) : string :=
  match k with
  | O => EmptyString
  | S k' => String a (str_repeat a k')
  end.

(** ** Mock services for the worked scenarios *)

(** The double-quote character, and a JSON string literal without escapes. *)
Definition dquote : string := String (ascii_of_nat 34) "".
Definition quoted (s : string) : string := dquote +:+ s +:+ dquote.

(** A decoder that knows the documents of [table] only. *)
Fixpoint mock_loads (table : list (string * json)) (doc : string)
    : string + json :=
  match table with
  | [] => inl "Expecting value"
  | (d, v) :: table' => if decide (doc = d) then inr v else mock_loads table' doc
  end.

(** A service that gives the same answer to every request. *)
Definition always (o : TransportFailure + Response)
    : list Request → Request → TransportFailure + Response :=
  λ _ _, o.

(** A service that answers the [n]-th request with the [n]-th entry of
    [script], and refuses connections once the script is over. *)
Definition scripted (script : list (TransportFailure + Response))
    : list Request → Request → TransportFailure + Response :=
  λ log _,
    default (inl {| failure_kind := ConnectionError;
                    failure_msg := "Connection refused" |})
            (script !! length log).

Definition localhost : HermesClient := {| base_url := "http://localhost:4020" |}.

Definition error_doc (x : string) : string :=
  "{" +:+ quoted "error" +:+ ": " +:+ quoted x +:+ "}".
Definition result_doc (x : string) : string :=
  "{" +:+ quoted "result" +:+ ": " +:+ quoted x +:+ "}".
Definition status_doc : string :=
  "{" +:+ quoted "status" +:+ ":" +:+ quoted "ok" +:+ ","
      +:+ quoted "schedulers" +:+ ":2,"
      +:+ quoted "memory" +:+ ":{" +:+ quoted "total" +:+ ":1048576}}".

Definition status_value : json :=
  JObject {[ "status" := JString "ok";
             "schedulers" := JInt 2;
             "memory" := JObject {[ "total" := JInt 1048576 ]} ]}.

Definition mock_table : list (string * json) :=
  [ (error_doc "model not loaded", JObject {[ "error" := JString "model not loaded" ]});
    (result_doc " Hello  ", JObject {[ "result" := JString " Hello  " ]});
    (status_doc, status_value);
    ("{}", JObject ∅) ].

(** Answers to [generate(gemma, ...)] and to [status()] on [localhost]. *)
Definition llm_response (code : Z) (why body : string) : Response :=
  {| status_code := code; reason := why;
     url := "http://localhost:4020/v1/llm/gemma"; text := body |}.

Definition status_response (code : Z) (why body : string) : Response :=
  {| status_code := code; reason := why;
     url := "http://localhost:4020/v1/status"; text := body |}.

Definition read_timeout : TransportFailure :=
  {| failure_kind := ReadTimeout;
     failure_msg := "Read timed out." |}.

(** ** The demonstration script [main]

    [main] prints to standard output and lets through the exceptions it has
    no handler for, so it runs in [Script]: the requests issued so far, the
    arguments of the [print] calls so far, and a result that is a normal
    return or any exception. *)

(** What indexing, [dict.get] and formatting raise. *)
Inductive BuiltinError : Type :=
  | KeyError (key : string)
  | TypeError
  | ValueError
  | AttributeError.

Inductive Exc : Type :=
  | RequestsError (e : PyExc)
  | Builtin (b : BuiltinError).

Inductive Completion (A : Type) : Type :=
  | Finished (a : A)
  | Crashed (e : Exc).
Arguments Finished {A} a.
Arguments Crashed {A} e.

Record World : Type := {
  issued : list Request;
  printed : list string
}.

Definition Script (A : Type) : Type := World → Completion A * World.

#[export] Instance Script_ret : MRet Script := λ A a w, (Finished a, w).

#[export] Instance Script_bind : MBind Script := λ A B k c w,
  match c w with
  | (Finished a, w') => k a w'
  | (Crashed e, w') => (Crashed e, w')
  end.

(** A call into the client: its requests go to [issued], its exception
    becomes the script's. *)
Definition call {A : Type} (c : IO A) : Script A := λ w,
  match c (issued w) with
  | (Returned a, log) => (Finished a, {| issued := log; printed := printed w |})
  | (Raised e, log) =>
      (Crashed (RequestsError e), {| issued := log; printed := printed w |})
  end.

(** An expression that evaluates to a value or raises. *)
Definition eval {A : Type} (x : BuiltinError + A) : Script A := λ w,
  match x with
  | inr a => (Finished a, w)
  | inl b => (Crashed (Builtin b), w)
  end.

(** [print(s)] *)
Definition print (s : string) : Script () := λ w,
  (Finished (), {| issued := issued w; printed := printed w ++ [s] |}).

(** [try: body  except ...: ...]: [handlers e] is the body of the first
    [except] clause that matches [e], if one does.  What the body did before
    it raised stays done, and an exception raised by a handler is not handled
    again. *)
Definition try_except {A : Type} (body : Script A)
    (handlers : Exc → option (Script A)) : Script A := λ w,
  match body w with
  | (Finished a, w') => (Finished a, w')
  | (Crashed e, w') =>
      match handlers e with
      | Some handler => handler w'
      | None => (Crashed e, w')
      end
  end.

(** [v[key]] for a string key: a [dict] has the key or raises [KeyError],
    anything else raises [TypeError]. *)
Definition subscript (v : json) (key : string) : BuiltinError + json :=
  match v with
  | JObject m =>
      match m !! key with
      | Some x => inr x
      | None => inl (KeyError key)
      end
  | _ => inl TypeError
  end.

(** [v.get(key, default)]: only a [dict] has the method. *)
Definition dict_get (v : json) (key : string) (default : json)
    : BuiltinError + json :=
  match v with
  | JObject m =>
      match m !! key with
      | Some x => inr x
      | None => inr default
      end
  | _ => inl AttributeError
  end.

(** The line feed that ends the longer messages. *)
Definition newline : string := String (ascii_of_nat 10) "".

Definition gemma_prompt : string :=
  "What is Elixir programming language in one sentence?".
Definition llama3_prompt : string :=
  "Explain functional programming in one sentence.".

Section Main.

Variable json_loads : string → string + json.
Variable server : list Request → Request → TransportFailure + Response.

(** [str] of a [float], a [list] or a [dict], which is Python's business. *)
Variable py_repr : json → string.

(** [format(v, ",")], the [:,] of the memory line: the digits in groups of
    three, or the exception raised for a value that has no such format. *)
Variable format_comma : json → BuiltinError + string.

(** Whether the exception of [Response.json] is a [RequestException]: it is
    in requests 2.27 and later, and is a plain [ValueError] before. *)
Variable decode_error_is_request_exception : bool.

(** [f"{v}"] for a decoded value *)
Definition format_value (v : json) : string :=
  match v with
  | JString s => s
  | JInt n => pretty n
  | JBool true => "True"
  | JBool false => "False"
  | JNull => "None"
  | JFloat _ | JArray _ | JObject _ => py_repr v
  end.

(** [isinstance(e, requests.HTTPError)] *)
Definition is_HTTPError (e : PyExc) : bool :=
  match e with
  | HTTPError _ _ => true
  | RequestFailed _ | JSONDecodeError _ _ => false
  end.

(** [isinstance(e, requests.RequestException)] *)
Definition is_RequestException (e : PyExc) : bool :=
  match e with
  | HTTPError _ _ | RequestFailed _ => true
  | JSONDecodeError _ _ => decode_error_is_request_exception
  end.

(** Lines 79 to 88.  The result tells whether [main] goes on: the handler
    ends in [return]. *)
Definition status_block (client : HermesClient) : Script bool :=
  print "Checking system status...";;
  try_except
    (status ← call (status json_loads server client);
     a ← eval (subscript status "status");
     print ("✓ Status: " +:+ format_value a);;
     b ← eval (subscript status "schedulers");
     print ("✓ Schedulers: " +:+ format_value b);;
     memory ← eval (subscript status "memory");
     total ← eval (subscript memory "total");
     t ← eval (format_comma total);
     print ("✓ Total Memory: " +:+ t +:+ " bytes" +:+ newline);;
     mret true)
    (λ e,
       match e with
       | RequestsError e =>
           if is_RequestException e then
             Some (print ("✗ Failed to get status: " +:+ exc_message e
                            +:+ newline);;
                   mret false)
           else None
       | Builtin _ => None
       end).

(** Lines 90 to 108. *)
Definition gemma_block (client : HermesClient) : Script () :=
  print "Generating text with Gemma model...";;
  try_except
    (result ← call (generate json_loads server client "gemma" gemma_prompt);
     x ← eval (subscript result "result");
     print ("✓ Response: " +:+ format_value x +:+ newline))
    (λ e,
       match e with
       | RequestsError (HTTPError msg response) =>
           Some
             (if bool_decide (status_code response = 400) then
                error ← call (response_json json_loads response);
                x ← eval (subscript error "error");
                print ("✗ Bad request: " +:+ format_value x +:+ newline)
              else if bool_decide (status_code response = 500) then
                error ← call (response_json json_loads response);
                x ← eval (subscript error "error");
                print ("✗ Server error: " +:+ format_value x +:+ newline)
              else
                print ("✗ HTTP error: " +:+ msg +:+ newline))
       | RequestsError e =>
           if is_RequestException e then
             Some (print ("✗ Request failed: " +:+ exc_message e +:+ newline))
           else None
       | Builtin _ => None
       end).

(** Lines 110 to 122. *)
Definition llama3_block (client : HermesClient) : Script () :=
  print "Generating text with Llama3 model...";;
  try_except
    (result ← call (generate json_loads server client "llama3" llama3_prompt);
     x ← eval (subscript result "result");
     print ("✓ Response: " +:+ format_value x +:+ newline))
    (λ e,
       match e with
       | RequestsError (HTTPError msg response) =>
           Some
             (error ← call (response_json json_loads response);
              x ← eval (dict_get error "error" (JString "Unknown error"));
              print ("✗ Error: " +:+ format_value x +:+ newline))
       | RequestsError e =>
           if is_RequestException e then
             Some (print ("✗ Request failed: " +:+ exc_message e +:+ newline))
           else None
       | Builtin _ => None
       end).

Definition main : Script () :=
  client ← call (__init__ "http://localhost:4020");
  go_on ← status_block client;
  if go_on : bool then
    gemma_block client;;
    llama3_block client
  else mret ().

End Main.

(** The exceptions [main] has no handler for, or raises inside a handler. *)
Definition unhandled (e : Exc) : Prop :=
  match e with
  | Builtin _ => True
  | RequestsError (JSONDecodeError _ _) => True
  | RequestsError _ => False
  end.

(** ** Mock builtins for the worked runs of [main] *)

(** Commas between groups of three digits, counted from the right. *)
Fixpoint commas (digits : string) : string :=
  match digits with
  | EmptyString => EmptyString
  | String c rest =>
      String c
        (match rest with
         | EmptyString => EmptyString
         | String _ _ =>
             if bool_decide (String.length rest mod 3 = 0)%nat
             then "," +:+ commas rest
             else commas rest
         end)
  end.

(** [format(v, ",")] for the values of the worked runs: an [int] gets its
    digits grouped, a [str] raises [ValueError], [None], a [list] and a
    [dict] raise [TypeError].  A [float] is not among those values and is
    turned down like them. *)
Definition mock_format_comma (v : json) : BuiltinError + string :=
  match v with
  | JInt n =>
      inr (if bool_decide (n < 0) then "-" +:+ commas (pretty (- n))
           else commas (pretty n))
  | JBool b => inr (if b then "1" else "0")
  | JString _ => inl ValueError
  | JNull | JFloat _ | JArray _ | JObject _ => inl TypeError
  end.

(** [str] of the one container the worked runs print. *)
Definition mock_repr (v : json) : string := "{}".

Definition fresh : World := {| issued := []; printed := [] |}.

(** * Properties *)

Section Properties.

Variable json_loads : string → string + json.
Variable server : list Request → Request → TransportFailure + Response.

#[local] Abbreviation generate := (generate json_loads server).
#[local] Abbreviation status := (status json_loads server).
#[local] Abbreviation outcome := (outcome json_loads).

(** *** [raise_for_status] *)

Lemma append_empty_inv (a b : string) : a +:+ b = "" → a = "" ∧ b = "".
Proof. destruct a; simpl; [tauto | discriminate]. Qed.

Lemma http_error_msg_nonempty (r : Response) :
  400 ≤ status_code r < 600 → http_error_msg r ≠ "".
Proof.
  intros Hs Hm. unfold http_error_msg in Hm.
  repeat case_bool_decide; try lia;
    apply append_empty_inv in Hm as [_ Hm]; discriminate Hm.
Qed.

Lemma http_error_msg_empty (r : Response) :
  ¬ (400 ≤ status_code r < 600) → http_error_msg r = "".
Proof.
  intros Hs. unfold http_error_msg.
  repeat case_bool_decide; try lia; reflexivity.
Qed.

Lemma raise_for_status_raises (r : Response) (log : list Request) :
  400 ≤ status_code r < 600 →
  raise_for_status r log = (Raised (HTTPError (http_error_msg r) r), log).
Proof.
  intros Hs. unfold raise_for_status.
  pose proof (http_error_msg_nonempty r Hs) as Hne.
  destruct (http_error_msg r); [congruence | reflexivity].
Qed.

Lemma raise_for_status_passes (r : Response) (log : list Request) :
  ¬ (400 ≤ status_code r < 600) →
  raise_for_status r log = (Returned (), log).
Proof.
  intros Hs. unfold raise_for_status.
  rewrite (http_error_msg_empty r Hs). reflexivity.
Qed.

(** The two closing lines of [generate] and [status]. *)
Lemma check_then_decode (r : Response) (log : list Request) :
  (raise_for_status r;; response_json json_loads r) log = (outcome r, log).
Proof.
  unfold mbind, IO_bind, outcome. case_bool_decide as Hs.
  - rewrite (raise_for_status_raises r log Hs). reflexivity.
  - rewrite (raise_for_status_passes r log Hs).
    unfold response_json. destruct (json_loads (text r)); reflexivity.
Qed.

(** *** One run of each operation, in closed form *)

Lemma generate_run (self : HermesClient) (model prompt : string)
    (log : list Request) :
  generate self model prompt log =
    (match server log (llm_request self model prompt) with
     | inl f => Raised (RequestFailed f)
     | inr r => outcome r
     end, log ++ [llm_request self model prompt]).
Proof.
  unfold generate, requests_post. cbv zeta.
  fold (llm_request self model prompt).
  unfold mbind at 1. unfold IO_bind at 1. unfold send.
  destruct (server log (llm_request self model prompt)) as [f | r];
    [reflexivity | apply check_then_decode].
Qed.

Lemma status_run (self : HermesClient) (log : list Request) :
  status self log =
    (match server log (status_request self) with
     | inl f => Raised (RequestFailed f)
     | inr r => outcome r
     end, log ++ [status_request self]).
Proof.
  unfold status, requests_get. cbv zeta.
  fold (status_request self).
  unfold mbind at 1. unfold IO_bind at 1. unfold send.
  destruct (server log (status_request self)) as [f | r];
    [reflexivity | apply check_then_decode].
Qed.

Lemma outcome_error (r : Response) :
  400 ≤ status_code r < 600 →
  outcome r = Raised (HTTPError (http_error_msg r) r).
Proof. intros Hs. unfold outcome. by rewrite bool_decide_true. Qed.

Lemma outcome_decoded (r : Response) :
  ¬ (400 ≤ status_code r < 600) →
  outcome r = match json_loads (text r) with
    | inr v => Returned v
    | inl msg => Raised (JSONDecodeError msg (text r))
    end.
Proof. intros Hs. unfold outcome. by rewrite bool_decide_false. Qed.

(** *** [rstrip] *)

Lemma append_nil_l (s : string) : "" +:+ s = s.
Proof. reflexivity. Qed.

Lemma append_cons (a : ascii) (s t : string) :
  String a s +:+ t = String a (s +:+ t).
Proof. reflexivity. Qed.

Lemma rstrip_slash_suffix (s : string) :
  ∃ k : nat, s = rstrip "/" s +:+ str_repeat "/"%char k.
Proof.
  induction s as [| a s' [k IH]]; [by exists 0%nat |].
  simpl. destruct (rstrip "/" s') as [| b t] eqn:Hr.
  - rewrite append_nil_l in IH.
    destruct (decide (a = "/"%char)) as [-> | Hne].
    + exists (S k). rewrite append_nil_l. simpl. by f_equal.
    + exists k. rewrite append_cons, append_nil_l. by f_equal.
  - exists k. rewrite append_cons. by f_equal.
Qed.

Lemma rstrip_slash_no_trailing (s t : string) : rstrip "/" s ≠ t +:+ "/".
Proof.
  revert t. induction s as [| a s' IH]; intros t; simpl.
  - destruct t; discriminate.
  - destruct (rstrip "/" s') as [| b u] eqn:Hr.
    + destruct (decide (a = "/"%char)) as [-> | Hne].
      * destruct t; discriminate.
      * destruct t as [| c t'].
        -- rewrite append_nil_l. congruence.
        -- rewrite append_cons. destruct t'; discriminate.
    + destruct t as [| c t'].
      * rewrite append_nil_l. discriminate.
      * rewrite append_cons. intros H. injection H as _ H.
        by apply (IH t').
Qed.

(** *** The claims *)


(** C1.  When the service answers [generate] with HTTP 200 and a JSON object
    whose [result] field is the string [X], [generate] returns normally
    (for every model and prompt, so in particular for every non-empty
    pair), the returned value is the decoded object itself, and its
    [result] field is exactly [X]: the client neither trims nor
    reinterprets the string. *)
Theorem generate_returns_result_verbatim
    (self : HermesClient) (model prompt : string) (log : list Request)
    (r : Response) (m : gmap string json) (X : string) :
  server log (llm_request self model prompt) = inr r →
  status_code r = 200 →
  json_loads (text r) = inr (JObject m) →
  m !! "result" = Some (JString X) →
  ∃ v : json,
    (generate self model prompt log).1 = Returned v ∧
    v = JObject m ∧
    json_get "result" v = Some (JString X).
Proof.
  intros Hsrv Hcode Hbody Hres. exists (JObject m).
  rewrite generate_run, Hsrv. cbn [fst].
  rewrite outcome_decoded by lia. rewrite Hbody. auto.
Qed.

(** C2 (amended).  For every response with a status from 400 to 599 whose
    body decodes to a JSON object with [error] field [X], [generate] and
    [status] raise an [HTTPError] that carries that very response: its
    status is the HTTP status code, and [X] is what the caller reads from
    the carried response with [e.response.json()["error"]].  The
    exception's own message is the generic text built by
    [raise_for_status]. *)
Theorem http_error_carries_status_and_body
    (self : HermesClient) (model prompt : string) (log : list Request)
    (r : Response) (m : gmap string json) (X : string) :
  400 ≤ status_code r < 600 →
  json_loads (text r) = inr (JObject m) →
  m !! "error" = Some (JString X) →
  let e := HTTPError (http_error_msg r) r in
  (server log (llm_request self model prompt) = inr r →
     (generate self model prompt log).1 = Raised e) ∧
  (server log (status_request self) = inr r →
     (status self log).1 = Raised e) ∧
  exc_status e = Some (status_code r) ∧
  exc_error_field json_loads e = Some (JString X) ∧
  exc_message e = http_error_msg r.
Proof.
  intros Hcode Hbody Herr e. repeat split.
  - intros Hsrv. rewrite generate_run, Hsrv. by apply outcome_error.
  - intros Hsrv. rewrite status_run, Hsrv. by apply outcome_error.
  - unfold exc_error_field. simpl. by rewrite Hbody.
Qed.

(** C3 (amended).  For every response with a status from 400 to 599,
    whatever its body (so also when the body is no JSON document or has no
    [error] field), [generate] and [status] raise an [HTTPError] for that
    response, with the status code attached and a non-empty generic
    message. *)
Theorem http_error_has_generic_message
    (self : HermesClient) (model prompt : string) (log : list Request)
    (r : Response) :
  400 ≤ status_code r < 600 →
  ∃ msg : string,
    msg ≠ "" ∧
    exc_message (HTTPError msg r) = msg ∧
    exc_status (HTTPError msg r) = Some (status_code r) ∧
    (server log (llm_request self model prompt) = inr r →
       (generate self model prompt log).1 = Raised (HTTPError msg r)) ∧
    (server log (status_request self) = inr r →
       (status self log).1 = Raised (HTTPError msg r)).
Proof.
  intros Hcode. exists (http_error_msg r).
  split; [by apply http_error_msg_nonempty |]. repeat split.
  - intros Hsrv. rewrite generate_run, Hsrv. by apply outcome_error.
  - intros Hsrv. rewrite status_run, Hsrv. by apply outcome_error.
Qed.

(** C4 (amended).  For every 2xx response to [generate]: when the body is
    no JSON document, [generate] raises a [JSONDecodeError], which is no
    [HTTPError] and carries no response; when the body is a JSON document,
    [generate] checks nothing and returns the decoded value as it is, so a
    document without a [result] field comes back without one (no empty or
    default [result] is filled in). *)
Theorem generate_2xx_body_unchecked
    (self : HermesClient) (model prompt : string) (log : list Request)
    (r : Response) :
  server log (llm_request self model prompt) = inr r →
  200 ≤ status_code r < 300 →
  (∀ msg : string, json_loads (text r) = inl msg →
     ∃ e : PyExc,
       (generate self model prompt log).1 = Raised e ∧
       e = JSONDecodeError msg (text r) ∧
       exc_response e = None ∧
       ∀ msg' r', e ≠ HTTPError msg' r') ∧
  (∀ v : json, json_loads (text r) = inr v →
     (generate self model prompt log).1 = Returned v).
Proof.
  intros Hsrv Hcode.
  rewrite generate_run, Hsrv. cbn [fst].
  rewrite outcome_decoded by lia. split.
  - intros msg ->. eexists. repeat split. discriminate.
  - by intros v ->.
Qed.

(** C5.  When no response is obtained for [generate] or [status] (refused
    connection, DNS failure, expired timeout: any [TransportFailure]), the
    call raises the transport exception unchanged; that exception carries
    no response and hence no status code.  Every kind of failure, a
    timeout included, takes the same path, and the failed call has issued
    a single request: nothing is retried. *)
Theorem transport_failure_has_no_status
    (self : HermesClient) (model prompt : string) (log : list Request)
    (f : TransportFailure) :
  (server log (llm_request self model prompt) = inl f →
     generate self model prompt log =
       (Raised (RequestFailed f), log ++ [llm_request self model prompt])) ∧
  (server log (status_request self) = inl f →
     status self log =
       (Raised (RequestFailed f), log ++ [status_request self])) ∧
  exc_response (RequestFailed f) = None ∧
  exc_status (RequestFailed f) = None.
Proof.
  repeat split.
  - intros Hsrv. by rewrite generate_run, Hsrv.
  - intros Hsrv. by rewrite status_run, Hsrv.
Qed.

(** C6.  For every model and prompt (in particular every non-empty pair),
    one run of [generate] adds exactly one request to those issued, whatever
    the service does with it: a POST to [<base>/v1/llm/<model>] with JSON
    body [{prompt: prompt}], the header [Content-Type: application/json]
    and a timeout of 60 seconds. *)
Theorem generate_issues_one_post
    (self : HermesClient) (model prompt : string) (log : list Request) :
  ∃ q : Request,
    (generate self model prompt log).2 = log ++ [q] ∧
    req_method q = POST ∧
    req_url q = base_url self +:+ "/v1/llm/" +:+ model ∧
    req_json q = Some (JObject {[ "prompt" := JString prompt ]}) ∧
    req_headers q = [("Content-Type", "application/json")] ∧
    req_timeout q = 60.
Proof.
  exists (llm_request self model prompt).
  rewrite generate_run. by repeat split.
Qed.

(** C7.  Every run of [status] issues a GET to [<base>/v1/status] with a
    timeout of 10 seconds and no body; when the answer has a 2xx status and
    its body decodes to [v], [status] returns [v] itself, so every field of
    it, the [memory] sub-object included, is handed over as decoded,
    without any check. *)
Theorem status_issues_get_and_returns_body
    (self : HermesClient) (log : list Request) :
  (∃ q : Request,
     (status self log).2 = log ++ [q] ∧
     req_method q = GET ∧
     req_url q = base_url self +:+ "/v1/status" ∧
     req_json q = None ∧
     req_timeout q = 10) ∧
  (∀ (r : Response) (v : json),
     server log (status_request self) = inr r →
     200 ≤ status_code r < 300 →
     json_loads (text r) = inr v →
     (status self log).1 = Returned v ∧
     ∀ v', (status self log).1 = Returned v' →
           json_get "memory" v' = json_get "memory" v).
Proof.
  split.
  - exists (status_request self). rewrite status_run. by repeat split.
  - intros r v Hsrv Hcode Hbody.
    rewrite status_run, Hsrv. cbn [fst].
    rewrite outcome_decoded by lia. rewrite Hbody.
    split; [reflexivity |]. by intros v' [= <-].
Qed.

(** C8.  One run of [generate] or of [status] adds exactly one request to
    those issued, on success and on failure alike (no retry).  Two runs of
    [status] in a row add two requests, and the result of the second run
    is computed from the answer to the second request, never from the
    first answer (no cache). *)
Theorem one_request_per_call_no_cache
    (self : HermesClient) (model prompt : string) (log : list Request) :
  (generate self model prompt log).2 = log ++ [llm_request self model prompt] ∧
  (status self log).2 = log ++ [status_request self] ∧
  let q := status_request self in
  let first := status self log in
  let second := status self first.2 in
  second.2 = log ++ [q; q] ∧
  second.1 = match server (log ++ [q]) q with
             | inl f => Raised (RequestFailed f)
             | inr r => outcome r
             end.
Proof.
  rewrite generate_run, status_run. cbn [fst snd].
  split; [reflexivity |]. split; [reflexivity |].
  rewrite status_run. cbn [fst snd]. split; [| reflexivity].
  by rewrite <- app_assoc.
Qed.

(** C9.  For every base address, construction stores the address without
    its trailing ['/'] characters: what is stored is the address minus a
    suffix of slashes, and does not end in a slash.  Construction issues no
    request. *)
Theorem init_strips_trailing_slash (base : string) (log : list Request) :
  ∃ self : HermesClient,
    __init__ base log = (Returned self, log) ∧
    base_url self = rstrip "/" base ∧
    (∃ k : nat, base = base_url self +:+ str_repeat "/"%char k) ∧
    (∀ t : string, base_url self ≠ t +:+ "/").
Proof.
  exists {| base_url := rstrip "/" base |}. repeat split.
  - apply rstrip_slash_suffix.
  - intros t. apply rstrip_slash_no_trailing.
Qed.

(** C10.  For every model string, the empty one included, [generate] issues
    its request to the URL made of the base address, ["/v1/llm/"] and the
    model as given, with no escaping and no check: an empty model gives a
    POST to [<base>/v1/llm/], and a model with ['/'] in it gives a path
    with more segments. *)
Theorem generate_model_verbatim
    (self : HermesClient) (model prompt : string) (log : list Request) :
  (∃ q : Request,
     (generate self model prompt log).2 = log ++ [q] ∧
     req_method q = POST ∧
     req_url q = base_url self +:+ "/v1/llm/" +:+ model) ∧
  (∃ q : Request,
     (generate self "" prompt log).2 = log ++ [q] ∧
     req_method q = POST ∧
     req_url q = base_url self +:+ "/v1/llm/") ∧
  (∃ q : Request,
     (generate localhost "../status" prompt log).2 = log ++ [q] ∧
     req_url q = "http://localhost:4020/v1/llm/../status").
Proof.
  repeat split.
  - exists (llm_request self model prompt). by rewrite generate_run.
  - exists (llm_request self "" prompt). by rewrite generate_run.
  - exists (llm_request localhost "../status" prompt). by rewrite generate_run.
Qed.

End Properties.

(** * Worked scenarios against the mock services *)

(** ** Scenario B and the other HTTP failures *)

(** C1 at a concrete input: the spaces around the generated text survive. *)
Lemma generate_returns_result_verbatim_witness :
  ∃ v : json,
    (generate (mock_loads mock_table)
       (always (inr (llm_response 200 "OK" (result_doc " Hello  "))))
       localhost "gemma" "hi" []).1 = Returned v ∧
    v = JObject {[ "result" := JString " Hello  " ]} ∧
    json_get "result" v = Some (JString " Hello  ").
Proof.
  apply (generate_returns_result_verbatim (mock_loads mock_table)
           (always (inr (llm_response 200 "OK" (result_doc " Hello  "))))
           localhost "gemma" "hi" []
           (llm_response 200 "OK" (result_doc " Hello  "))
           {[ "result" := JString " Hello  " ]} " Hello  ");
    reflexivity.
Defined.

(** C2 as stated fails twice.  A 300 answer is no 2xx answer, its body is a
    JSON object with an [error] field, and yet both operations return that
    object as a normal result.  And for a 400 answer the message of the
    raised exception is the text of [raise_for_status], not the [error]
    field of the body. *)
Lemma non_2xx_error_counterexample :
  let loads := mock_loads mock_table in
  let body := error_doc "model not loaded" in
  let decoded := JObject {[ "error" := JString "model not loaded" ]} in
  let g300 := llm_response 300 "Multiple Choices" body in
  let s300 := status_response 300 "Multiple Choices" body in
  let g400 := llm_response 400 "Bad Request" body in
  ¬ (200 ≤ status_code g300 < 300) ∧
  ¬ (200 ≤ status_code s300 < 300) ∧
  loads body = inr decoded ∧
  json_get "error" decoded = Some (JString "model not loaded") ∧
  generate loads (always (inr g300)) localhost "gemma" "hi" []
    = (Returned decoded, [llm_request localhost "gemma" "hi"]) ∧
  status loads (always (inr s300)) localhost []
    = (Returned decoded, [status_request localhost]) ∧
  (∃ e : PyExc,
     (generate loads (always (inr g400)) localhost "gemma" "hi" []).1
       = Raised e ∧
     exc_status e = Some 400 ∧
     exc_message e
       = "400 Client Error: Bad Request for url: http://localhost:4020/v1/llm/gemma" ∧
     exc_message e ≠ "model not loaded").
Proof.
  cbv zeta. do 2 (split; [simpl; lia |]). do 4 (split; [reflexivity |]).
  eexists. do 3 (split; [reflexivity |]). discriminate.
Qed.

(** Scenario B: HTTP 400 with [{error: model not loaded}]. *)
Lemma http_error_carries_status_and_body_witness :
  let loads := mock_loads mock_table in
  let r := llm_response 400 "Bad Request" (error_doc "model not loaded") in
  let e := HTTPError (http_error_msg r) r in
  (generate loads (always (inr r)) localhost "gemma" "hi" []).1 = Raised e ∧
  exc_status e = Some 400 ∧
  exc_error_field loads e = Some (JString "model not loaded").
Proof.
  cbv zeta.
  pose proof (http_error_carries_status_and_body (mock_loads mock_table)
                (always (inr (llm_response 400 "Bad Request"
                                (error_doc "model not loaded"))))
                localhost "gemma" "hi" []
                (llm_response 400 "Bad Request" (error_doc "model not loaded"))
                {[ "error" := JString "model not loaded" ]}
                "model not loaded") as H.
  destruct H as (Hgen & _ & Hst & Hfield & _);
    [simpl; lia | reflexivity | reflexivity |].
  split; [apply Hgen; reflexivity |]. split; [exact Hst | exact Hfield].
Defined.

(** C3 as stated fails: a 300 answer whose body is the empty JSON object has
    no [error] field, and both operations return that object as a normal
    result instead of raising. *)
Lemma non_2xx_without_error_counterexample :
  let loads := mock_loads mock_table in
  let g300 := llm_response 300 "Multiple Choices" "{}" in
  let s300 := status_response 300 "Multiple Choices" "{}" in
  ¬ (200 ≤ status_code g300 < 300) ∧
  ¬ (200 ≤ status_code s300 < 300) ∧
  loads "{}" = inr (JObject ∅) ∧
  json_get "error" (JObject ∅) = None ∧
  generate loads (always (inr g300)) localhost "gemma" "hi" []
    = (Returned (JObject ∅), [llm_request localhost "gemma" "hi"]) ∧
  status loads (always (inr s300)) localhost []
    = (Returned (JObject ∅), [status_request localhost]).
Proof.
  cbv zeta. do 2 (split; [simpl; lia |]). repeat split.
Qed.

(** A 500 answer with an HTML body. *)
Lemma http_error_has_generic_message_witness :
  let loads := mock_loads mock_table in
  let r := llm_response 500 "Internal Server Error" "<html>oops</html>" in
  ∃ msg : string,
    msg ≠ "" ∧
    exc_message (HTTPError msg r) = msg ∧
    exc_status (HTTPError msg r) = Some (status_code r) ∧
    (always (inr r) [] (llm_request localhost "gemma" "hi") = inr r →
       (generate loads (always (inr r)) localhost "gemma" "hi" []).1
         = Raised (HTTPError msg r)) ∧
    (always (inr r) [] (status_request localhost) = inr r →
       (status loads (always (inr r)) localhost []).1
         = Raised (HTTPError msg r)).
Proof.
  cbv zeta.
  apply (http_error_has_generic_message (mock_loads mock_table)
           (always (inr (llm_response 500 "Internal Server Error"
                           "<html>oops</html>")))
           localhost "gemma" "hi" []
           (llm_response 500 "Internal Server Error" "<html>oops</html>")).
  simpl; lia.
Defined.

(** C4 as stated fails: a 200 answer whose body is the empty JSON object has
    no [result] field, and [generate] returns that object as a normal result;
    no failure of any kind is raised. *)
Lemma generate_2xx_missing_result_counterexample :
  let loads := mock_loads mock_table in
  let r200 := llm_response 200 "OK" "{}" in
  200 ≤ status_code r200 < 300 ∧
  loads (text r200) = inr (JObject ∅) ∧
  json_get "result" (JObject ∅) = None ∧
  generate loads (always (inr r200)) localhost "gemma" "hi" []
    = (Returned (JObject ∅), [llm_request localhost "gemma" "hi"]).
Proof.
  cbv zeta. split; [simpl; lia |]. repeat split.
Qed.

(** A 200 answer with an empty object, and a 200 answer with an HTML body. *)
Lemma generate_2xx_body_unchecked_witness :
  let loads := mock_loads mock_table in
  (generate loads (always (inr (llm_response 200 "OK" "{}")))
     localhost "gemma" "hi" []).1 = Returned (JObject ∅) ∧
  ∃ e : PyExc,
    (generate loads (always (inr (llm_response 200 "OK" "<html>")))
       localhost "gemma" "hi" []).1 = Raised e ∧
    e = JSONDecodeError "Expecting value" "<html>" ∧
    exc_response e = None ∧
    ∀ msg' r', e ≠ HTTPError msg' r'.
Proof.
  cbv zeta. split.
  - apply (generate_2xx_body_unchecked (mock_loads mock_table)
             (always (inr (llm_response 200 "OK" "{}")))
             localhost "gemma" "hi" [] (llm_response 200 "OK" "{}"));
      [reflexivity | simpl; lia | reflexivity].
  - apply (generate_2xx_body_unchecked (mock_loads mock_table)
             (always (inr (llm_response 200 "OK" "<html>")))
             localhost "gemma" "hi" [] (llm_response 200 "OK" "<html>"));
      [reflexivity | simpl; lia | reflexivity].
Defined.

(** ** Scenario C: the service never answers *)

Lemma transport_failure_has_no_status_witness :
  generate (mock_loads mock_table) (always (inl read_timeout)) localhost "x" "y" []
    = (Raised (RequestFailed read_timeout), [llm_request localhost "x" "y"]) ∧
  status (mock_loads mock_table) (always (inl read_timeout)) localhost []
    = (Raised (RequestFailed read_timeout), [status_request localhost]) ∧
  exc_status (RequestFailed read_timeout) = None.
Proof.
  destruct (transport_failure_has_no_status (mock_loads mock_table)
              (always (inl read_timeout)) localhost "x" "y" [] read_timeout)
    as (Hgen & Hst & _ & Hnone).
  split; [apply Hgen; reflexivity |].
  split; [apply Hst; reflexivity | exact Hnone].
Defined.

(** ** Scenario A: a healthy service *)

Lemma status_issues_get_and_returns_body_witness :
  let r := status_response 200 "OK" status_doc in
  (status (mock_loads mock_table) (always (inr r)) localhost []).1
    = Returned status_value ∧
  json_get "total" (default JNull (json_get "memory" status_value))
    = Some (JInt 1048576).
Proof.
  cbv zeta. split; [| reflexivity].
  destruct (status_issues_get_and_returns_body (mock_loads mock_table)
              (always (inr (status_response 200 "OK" status_doc))) localhost [])
    as [_ Hbody].
  apply (Hbody (status_response 200 "OK" status_doc) status_value);
    [reflexivity | simpl; lia | reflexivity].
Defined.

(** Two calls in a row against a service whose second answer differs from
    its first: the second call reports the second answer. *)
Example status_twice_sees_both_answers :
  let loads := mock_loads mock_table in
  let srv := scripted [inr (status_response 200 "OK" status_doc);
                       inr (status_response 200 "OK" "{}")] in
  let first := status loads srv localhost [] in
  let second := status loads srv localhost first.2 in
  first.1 = Returned status_value ∧
  second.1 = Returned (JObject ∅) ∧
  second.2 = [status_request localhost; status_request localhost].
Proof. cbv zeta. repeat split. Qed.

(** [rstrip] on a few addresses *)
Example rstrip_examples :
  rstrip "/" "http://localhost:4020/" = "http://localhost:4020" ∧
  rstrip "/" "http://localhost:4020//" = "http://localhost:4020" ∧
  rstrip "/" "http://localhost:4020/api" = "http://localhost:4020/api" ∧
  rstrip "/" "//" = "".
Proof. repeat split. Qed.

(** * More on the client *)

Section ClientFacts.

Variable json_loads : string → string + json.
Variable server : list Request → Request → TransportFailure + Response.

#[local] Abbreviation generate := (generate json_loads server).
#[local] Abbreviation status := (status json_loads server).

(** ** Strings *)

Lemma append_nil_r (s : string) : s +:+ "" = s.
Proof.
  induction s as [| a s IH]; [reflexivity |].
  rewrite append_cons. by f_equal.
Qed.

Lemma append_assoc (a b c : string) : (a +:+ b) +:+ c = a +:+ (b +:+ c).
Proof.
  induction a as [| x a IH]; [reflexivity |].
  rewrite !append_cons. by f_equal.
Qed.

Lemma append_inv_head (a b c : string) : a +:+ b = a +:+ c → b = c.
Proof.
  induction a as [| x a IH]; [by rewrite !append_nil_l |].
  rewrite !append_cons. intros [= H]. by apply IH.
Qed.

Lemma str_repeat_snoc (a : ascii) (k : nat) :
  str_repeat a (S k) = str_repeat a k +:+ String a "".
Proof.
  induction k as [| k IH]; [reflexivity |].
  change (String a (str_repeat a (S k))
          = String a (str_repeat a k +:+ String a "")).
  by f_equal.
Qed.

Lemma rstrip_only_slashes (k : nat) : rstrip "/" (str_repeat "/"%char k) = "".
Proof.
  induction k as [| k IH]; [reflexivity |].
  simpl. rewrite IH. reflexivity.
Qed.

Lemma rstrip_append_slashes (s : string) (k : nat) :
  rstrip "/" (s +:+ str_repeat "/"%char k) = rstrip "/" s.
Proof.
  induction s as [| a s IH].
  - rewrite append_nil_l. apply rstrip_only_slashes.
  - rewrite append_cons. simpl. by rewrite IH.
Qed.

Lemma rstrip_clean (s : string) :
  (∀ t : string, s ≠ t +:+ "/") → rstrip "/" s = s.
Proof.
  intros Hclean. destruct (rstrip_slash_suffix s) as [k Hk].
  destruct k as [| k].
  - simpl in Hk. rewrite append_nil_r in Hk. by symmetry.
  - exfalso. apply (Hclean (rstrip "/" s +:+ str_repeat "/"%char k)).
    rewrite append_assoc, <- str_repeat_snoc. exact Hk.
Qed.

(** ** Construction *)

(** X1.  Addresses that differ only in the number of trailing slashes give
    the same client. *)
Theorem init_ignores_trailing_slashes
    (base : string) (k : nat) (log : list Request) :
  __init__ (base +:+ str_repeat "/"%char k) log = __init__ base log.
Proof. unfold __init__. by rewrite rstrip_append_slashes. Qed.

(** X2.  An address that does not end in a slash is stored as it is. *)
Theorem init_keeps_clean_address (base : string) (log : list Request) :
  (∀ t : string, base ≠ t +:+ "/") →
  __init__ base log = (Returned {| base_url := base |}, log).
Proof. intros Hclean. unfold __init__. by rewrite rstrip_clean. Qed.

(** X3.  Building a client from the address another client has stored
    gives that client again. *)
Theorem init_idempotent (base : string) (log : list Request) :
  ∃ self : HermesClient,
    __init__ base log = (Returned self, log) ∧
    __init__ (base_url self) log = (Returned self, log).
Proof.
  exists {| base_url := rstrip "/" base |}. split; [reflexivity |].
  unfold __init__. cbn [base_url].
  rewrite rstrip_clean; [reflexivity |].
  intros t. apply rstrip_slash_no_trailing.
Qed.

(** X4.  Construction checks nothing: the empty address and an address
    made of slashes only are accepted and stored as the empty string, and
    [status] then asks for the host-less URL [/v1/status]. *)
Theorem init_accepts_empty_address (k : nat) (log : list Request) :
  ∃ (self : HermesClient) (q : Request),
    __init__ (str_repeat "/"%char k) log = (Returned self, log) ∧
    base_url self = "" ∧
    (status self log).2 = log ++ [q] ∧
    req_method q = GET ∧
    req_url q = "/v1/status".
Proof.
  exists {| base_url := "" |}, (status_request {| base_url := "" |}).
  split; [| split; [reflexivity |]].
  - unfold __init__. by rewrite rstrip_only_slashes.
  - rewrite status_run. by repeat split.
Qed.

(** ** Responses *)

(** X5.  Only the statuses from 400 to 599 are failures.  Any other status,
    a 1xx or a 3xx as much as a 2xx, takes the success path of both
    operations: the decoded body is returned, and a body that does not
    decode raises the decoder's error. *)
Theorem non_error_status_is_success
    (self : HermesClient) (model prompt : string) (log : list Request)
    (r : Response) :
  ¬ (400 ≤ status_code r < 600) →
  let decoded :=
    match json_loads (text r) with
    | inr v => Returned v
    | inl msg => Raised (JSONDecodeError msg (text r))
    end in
  (server log (llm_request self model prompt) = inr r →
     (generate self model prompt log).1 = decoded) ∧
  (server log (status_request self) = inr r →
     (status self log).1 = decoded).
Proof.
  intros Hcode decoded. split; intros Hsrv.
  - rewrite generate_run, Hsrv. by apply outcome_decoded.
  - rewrite status_run, Hsrv. by apply outcome_decoded.
Qed.

(** X6.  The request of [generate] determines the model and the prompt: two
    calls of one client that issue the same request were given the same
    model and the same prompt. *)
Theorem request_determines_model_and_prompt
    (self : HermesClient) (model prompt model' prompt' : string)
    (log : list Request) :
  (generate self model prompt log).2 = (generate self model' prompt' log).2 →
  model = model' ∧ prompt = prompt'.
Proof.
  rewrite !generate_run. cbn [snd]. intros H.
  apply app_inv_head in H. apply (inj (λ q, [q])) in H.
  pose proof (f_equal req_url H) as Hurl.
  pose proof (f_equal (λ q, req_json q ≫= json_get "prompt") H) as Hjson.
  unfold llm_request in Hurl, Hjson. cbn [req_url req_json] in Hurl, Hjson.
  split.
  - apply append_inv_head in Hurl. by apply append_inv_head in Hurl.
  - cbn [mbind option_bind json_get] in Hjson.
    rewrite !lookup_singleton_eq in Hjson. by injection Hjson.
Qed.

End ClientFacts.

Lemma init_keeps_clean_address_witness :
  __init__ "http://localhost:4020/api" [] =
    (Returned {| base_url := "http://localhost:4020/api" |}, []).
Proof.
  apply (init_keeps_clean_address "http://localhost:4020/api" []).
  intros t H.
  apply (rstrip_slash_no_trailing "http://localhost:4020/api" t).
  vm_compute rstrip. exact H.
Defined.

Lemma non_error_status_is_success_witness :
  (generate (mock_loads mock_table)
     (always (inr (llm_response 201 "Created" (result_doc " Hello  "))))
     localhost "gemma" "hi" []).1
    = Returned (JObject {[ "result" := JString " Hello  " ]}) ∧
  (status (mock_loads mock_table)
     (always (inr (status_response 302 "Found" "<html>moved</html>")))
     localhost []).1
    = Raised (JSONDecodeError "Expecting value" "<html>moved</html>").
Proof.
  split.
  - apply (non_error_status_is_success (mock_loads mock_table)
             (always (inr (llm_response 201 "Created" (result_doc " Hello  "))))
             localhost "gemma" "hi" []
             (llm_response 201 "Created" (result_doc " Hello  ")));
      [simpl; lia | reflexivity].
  - apply (non_error_status_is_success (mock_loads mock_table)
             (always (inr (status_response 302 "Found" "<html>moved</html>")))
             localhost "gemma" "hi" []
             (status_response 302 "Found" "<html>moved</html>"));
      [simpl; lia | reflexivity].
Defined.

Lemma request_determines_model_and_prompt_witness :
  "gemma" = "gemma" ∧ "hi" = "hi".
Proof.
  apply (request_determines_model_and_prompt (mock_loads mock_table)
           (always (inl read_timeout)) localhost "gemma" "hi" "gemma" "hi" []).
  reflexivity.
Defined.

(** * The demonstration script *)

Section MainProperties.

Variable json_loads : string → string + json.
Variable server : list Request → Request → TransportFailure + Response.
Variable py_repr : json → string.
Variable format_comma : json → BuiltinError + string.
Variable decode_error_is_request_exception : bool.

#[local] Abbreviation generate := (generate json_loads server).
#[local] Abbreviation status := (status json_loads server).
#[local] Abbreviation outcome := (outcome json_loads).
#[local] Abbreviation status_block :=
  (status_block json_loads server py_repr format_comma
     decode_error_is_request_exception).
#[local] Abbreviation gemma_block :=
  (gemma_block json_loads server py_repr decode_error_is_request_exception).
#[local] Abbreviation llama3_block :=
  (llama3_block json_loads server py_repr decode_error_is_request_exception).
#[local] Abbreviation main :=
  (main json_loads server py_repr format_comma
     decode_error_is_request_exception).
#[local] Abbreviation is_RequestException :=
  (is_RequestException decode_error_is_request_exception).

Lemma call_status (client : HermesClient) (w : World) :
  call (status client) w =
    (match server (issued w) (status_request client) with
     | inl f => Crashed (RequestsError (RequestFailed f))
     | inr r => match outcome r with
                | Returned v => Finished v
                | Raised e => Crashed (RequestsError e)
                end
     end,
     {| issued := issued w ++ [status_request client];
        printed := printed w |}).
Proof.
  unfold call. rewrite status_run.
  destruct (server (issued w) (status_request client)) as [f | r];
    [reflexivity |].
  destruct (outcome r); reflexivity.
Qed.

Lemma call_generate (client : HermesClient) (model prompt : string)
    (w : World) :
  call (generate client model prompt) w =
    (match server (issued w) (llm_request client model prompt) with
     | inl f => Crashed (RequestsError (RequestFailed f))
     | inr r => match outcome r with
                | Returned v => Finished v
                | Raised e => Crashed (RequestsError e)
                end
     end,
     {| issued := issued w ++ [llm_request client model prompt];
        printed := printed w |}).
Proof.
  unfold call. rewrite generate_run.
  destruct (server (issued w) (llm_request client model prompt)) as [f | r];
    [reflexivity |].
  destruct (outcome r); reflexivity.
Qed.

Lemma call_response_json (r : Response) (w : World) :
  call (response_json json_loads r) w =
    (match json_loads (text r) with
     | inr v => Finished v
     | inl msg => Crashed (RequestsError (JSONDecodeError msg (text r)))
     end, w).
Proof.
  unfold call, response_json. destruct w as [log out].
  destruct (json_loads (text r)); reflexivity.
Qed.

Lemma outcome_raised (r : Response) (e : PyExc) :
  outcome r = Raised e →
  (e = HTTPError (http_error_msg r) r ∧ 400 ≤ status_code r < 600) ∨
  (∃ msg, e = JSONDecodeError msg (text r)).
Proof.
  unfold outcome. case_bool_decide as Hs.
  - intros [= <-]. by left.
  - destruct (json_loads (text r)) as [msg | v]; [| discriminate].
    intros [= <-]. right. by exists msg.
Qed.


Lemma not_caught_unhandled (e : PyExc) :
  is_RequestException e = false → unhandled (RequestsError e).
Proof. destruct e; simpl; [discriminate | discriminate | done]. Qed.

Lemma unhandled_inv (e : Exc) :
  unhandled e →
  (∃ b, e = Builtin b) ∨ (∃ msg doc, e = RequestsError (JSONDecodeError msg doc)).
Proof. destruct e as [[] |]; simpl; intros H; try done; eauto. Qed.

Ltac run_script :=
  unfold mbind, Script_bind, mret, Script_ret, try_except, print, eval;
  cbn [issued printed];
  rewrite ?call_status, ?call_generate, ?call_response_json;
  cbn [issued printed].

Ltac split_cases :=
  repeat (cbn [issued printed fst snd] in *;
          rewrite ?call_response_json in *;
          first [ case_match | case_bool_decide ]; simplify_eq).

Ltac close_frame :=
  cbn [issued printed]; rewrite <- ?app_assoc; cbn [app];
  eexists _, _; split; [reflexivity |];
  intros ? [= <-]; first [ exact I | by apply not_caught_unhandled ].

(** Each block issues exactly one request, whatever comes back, keeps what
    was printed before it, and lets only [unhandled] exceptions through. *)
Lemma status_block_frame (client : HermesClient) (w : World) :
  ∃ (res : Completion bool) (out : list string),
    status_block client w =
      (res, {| issued := issued w ++ [status_request client];
               printed := printed w ++ "Checking system status..." :: out |}) ∧
    ∀ e, res = Crashed e → unhandled e.
Proof.
  unfold status_block. run_script. split_cases; close_frame.
Qed.

Lemma gemma_block_frame (client : HermesClient) (w : World) :
  ∃ (res : Completion ()) (out : list string),
    gemma_block client w =
      (res, {| issued := issued w ++ [llm_request client "gemma" gemma_prompt];
               printed := printed w
                            ++ "Generating text with Gemma model..." :: out |}) ∧
    ∀ e, res = Crashed e → unhandled e.
Proof.
  unfold gemma_block. run_script. split_cases; close_frame.
Qed.

Lemma llama3_block_frame (client : HermesClient) (w : World) :
  ∃ (res : Completion ()) (out : list string),
    llama3_block client w =
      (res, {| issued := issued w ++ [llm_request client "llama3" llama3_prompt];
               printed := printed w
                            ++ "Generating text with Llama3 model..." :: out |}) ∧
    ∀ e, res = Crashed e → unhandled e.
Proof.
  unfold llama3_block. run_script. split_cases; close_frame.
Qed.

Lemma init_localhost (log : list Request) :
  __init__ "http://localhost:4020" log = (Returned localhost, log).
Proof. vm_compute. reflexivity. Qed.

Lemma main_unfold (w : World) :
  main w =
    match status_block localhost w with
    | (Finished true, w1) =>
        match gemma_block localhost w1 with
        | (Finished _, w2) => llama3_block localhost w2
        | (Crashed e, w2) => (Crashed e, w2)
        end
    | (Finished false, w1) => (Finished (), w1)
    | (Crashed e, w1) => (Crashed e, w1)
    end.
Proof.
  unfold main. unfold mbind at 1. unfold Script_bind at 1.
  unfold call at 1. rewrite init_localhost.
  unfold mbind at 1. unfold Script_bind at 1.
  destruct w as [log out]. cbn [issued printed].
  destruct (status_block localhost _) as [[[] | e] w1]; [| reflexivity ..].
  unfold mbind, Script_bind.
  destruct (gemma_block localhost w1) as [[] w2]; reflexivity.
Qed.

(** X7.  Whatever the service answers, [main] first prints its heading and
    issues the status request, and issues nothing but, in this order, the
    status request, the gemma request and the llama3 request: one, two or
    all three of them. *)
Theorem main_requests_in_order (w : World) :
  let s := status_request localhost in
  let g := llm_request localhost "gemma" gemma_prompt in
  let l := llm_request localhost "llama3" llama3_prompt in
  ∃ (rest : list Request) (out : list string),
    issued (main w).2 = issued w ++ rest ∧
    printed (main w).2 = printed w ++ "Checking system status..." :: out ∧
    (rest = [s] ∨ rest = [s; g] ∨ rest = [s; g; l]).
Proof.
  intros s g l. rewrite main_unfold.
  destruct (status_block_frame localhost w) as (res1 & out1 & -> & _).
  destruct res1 as [[] | e1]; cbn [fst snd issued printed];
    [| by eauto 6 ..].
  match goal with |- context [gemma_block localhost ?w1] =>
    destruct (gemma_block_frame localhost w1) as (res2 & out2 & -> & _)
  end.
  cbn [issued printed].
  destruct res2 as [[] | e2]; cbn [fst snd issued printed].
  - match goal with |- context [llama3_block localhost ?w2] =>
      destruct (llama3_block_frame localhost w2) as (res3 & out3 & -> & _)
    end.
    cbn [fst snd issued printed]. rewrite <- !app_assoc. cbn [app].
    eexists _, _. split; [reflexivity |]. split; [reflexivity |]. auto.
  - rewrite <- !app_assoc. cbn [app].
    eexists _, _. split; [reflexivity |]. split; [reflexivity |]. auto.
Qed.

(** X8.  No [HTTPError] and no transport failure ever leaves [main]: an
    exception that does leave it is a builtin error ([KeyError],
    [TypeError], ...) or the decoder's error. *)
Theorem main_lets_no_http_error_through (w : World) (e : Exc) :
  (main w).1 = Crashed e →
  (∃ b : BuiltinError, e = Builtin b) ∨
  (∃ msg doc : string, e = RequestsError (JSONDecodeError msg doc)).
Proof.
  intros Hmain. apply unhandled_inv. revert Hmain. rewrite main_unfold.
  destruct (status_block_frame localhost w) as (res1 & out1 & -> & H1).
  destruct res1 as [[] | e1]; cbn [fst];
    [| discriminate | intros [= <-]; by apply H1].
  match goal with |- context [gemma_block localhost ?w1] =>
    destruct (gemma_block_frame localhost w1) as (res2 & out2 & -> & H2)
  end.
  destruct res2 as [[] | e2]; cbn [fst]; [| intros [= <-]; by apply H2].
  match goal with |- context [llama3_block localhost ?w2] =>
    destruct (llama3_block_frame localhost w2) as (res3 & out3 & -> & H3)
  end.
  cbn [fst]. apply H3.
Qed.

(** X9.  When the status call raises an exception that
    [except requests.RequestException] catches, [main] reports it and
    returns normally: the status request is the only one issued, and
    neither model is asked. *)
Theorem main_stops_after_failed_status (w : World) (e : PyExc) :
  (status localhost (issued w)).1 = Raised e →
  is_RequestException e = true →
  main w =
    (Finished (),
     {| issued := issued w ++ [status_request localhost];
        printed := printed w ++
          [ "Checking system status...";
            "✗ Failed to get status: " +:+ exc_message e +:+ newline ] |}).
Proof.
  rewrite status_run. cbn [fst]. intros Hst Hcaught.
  rewrite main_unfold. unfold status_block. run_script.
  destruct (server (issued w) (status_request localhost)) as [f | r].
  - injection Hst as <-. cbn. by rewrite <- app_assoc.
  - rewrite Hst. rewrite Hcaught. cbn. by rewrite <- app_assoc.
Qed.

(** X10.  When the status answer decodes to an object that lacks [status],
    [schedulers] or [memory], [main] ends with the [KeyError] of a key the
    object lacks, after the status request only: the [try] has no handler
    for it and no model is asked. *)
Theorem main_crashes_on_missing_status_key
    (w : World) (r : Response) (m : gmap string json) :
  server (issued w) (status_request localhost) = inr r →
  ¬ (400 ≤ status_code r < 600) →
  json_loads (text r) = inr (JObject m) →
  m !! "status" = None ∨ m !! "schedulers" = None ∨ m !! "memory" = None →
  ∃ (key : string) (out : list string),
    m !! key = None ∧
    main w =
      (Crashed (Builtin (KeyError key)),
       {| issued := issued w ++ [status_request localhost];
          printed := printed w ++ "Checking system status..." :: out |}).
Proof.
  intros Hsrv Hcode Hbody Hmiss.
  rewrite main_unfold. unfold status_block. run_script.
  rewrite Hsrv, (outcome_decoded json_loads r Hcode), Hbody.
  unfold subscript at 1.
  destruct (m !! "status") as [a |] eqn:Ha;
    [| exists "status", []; by split].
  cbn [issued printed]. unfold subscript at 1.
  destruct (m !! "schedulers") as [b |] eqn:Hb;
    [| exists "schedulers"; eexists; split; [done |];
       rewrite <- app_assoc; reflexivity].
  cbn [issued printed]. unfold subscript at 1.
  destruct (m !! "memory") as [mem |] eqn:Hmem;
    [destruct Hmiss as [? | [? | ?]]; congruence |].
  exists "memory". eexists. split; [done |].
  rewrite <- !app_assoc. reflexivity.
Qed.

(** X11.  In the gemma step a transport failure, or an HTTP error with a
    status other than 400 and 500, is reported with the exception's own
    message, without reading the body, and the step ends normally. *)
Theorem gemma_block_reports_and_goes_on
    (client : HermesClient) (w : World) (e : PyExc) :
  (generate client "gemma" gemma_prompt (issued w)).1 = Raised e →
  is_RequestException e = true →
  (∀ msg r, e = HTTPError msg r → status_code r ≠ 400 ∧ status_code r ≠ 500) →
  gemma_block client w =
    (Finished (),
     {| issued := issued w ++ [llm_request client "gemma" gemma_prompt];
        printed := printed w ++
          [ "Generating text with Gemma model...";
            (if is_HTTPError e then "✗ HTTP error: " else "✗ Request failed: ")
              +:+ exc_message e +:+ newline ] |}).
Proof.
  rewrite generate_run. cbn [fst]. intros Hgen Hcaught Hcode.
  unfold gemma_block. run_script.
  destruct (server (issued w) (llm_request client "gemma" gemma_prompt))
    as [f | r].
  - injection Hgen as <-. cbn. by rewrite <- app_assoc.
  - rewrite Hgen. destruct e as [f | msg r' | msg doc].
    + cbn. by rewrite <- app_assoc.
    + destruct (Hcode msg r' eq_refl) as [H400 H500].
      rewrite !bool_decide_false by done.
      cbn. by rewrite <- app_assoc.
    + rewrite Hcaught. cbn. by rewrite <- app_assoc.
Qed.

(** X12.  In the gemma step the handler of a 400 or 500 answer reads
    [error] from the decoded body without a guard: a body that does not
    decode makes the step end with the decoder's error, and a decoded body
    without the key (or one that is no object) with the [KeyError] (or
    [TypeError]); the failure itself is not reported. *)
Theorem gemma_block_needs_error_body
    (client : HermesClient) (w : World) (r : Response) :
  server (issued w) (llm_request client "gemma" gemma_prompt) = inr r →
  status_code r = 400 ∨ status_code r = 500 →
  let w' := {| issued := issued w ++ [llm_request client "gemma" gemma_prompt];
               printed := printed w ++ ["Generating text with Gemma model..."] |} in
  (∀ msg : string, json_loads (text r) = inl msg →
     gemma_block client w =
       (Crashed (RequestsError (JSONDecodeError msg (text r))), w')) ∧
  (∀ v : json, json_loads (text r) = inr v →
     ∀ b : BuiltinError, subscript v "error" = inl b →
     gemma_block client w = (Crashed (Builtin b), w')).
Proof.
  intros Hsrv Hcode w'. subst w'.
  assert (400 ≤ status_code r < 600) as Herr by lia.
  split.
  - intros msg Hbody. unfold gemma_block. run_script.
    rewrite Hsrv, (outcome_error json_loads r Herr).
    destruct Hcode as [H | H];
      [ rewrite bool_decide_true by done
      | rewrite bool_decide_false by lia; rewrite bool_decide_true by done ];
      rewrite call_response_json, Hbody; reflexivity.
  - intros v Hbody b Hsub. unfold gemma_block. run_script.
    rewrite Hsrv, (outcome_error json_loads r Herr).
    destruct Hcode as [H | H];
      [ rewrite bool_decide_true by done
      | rewrite bool_decide_false by lia; rewrite bool_decide_true by done ];
      rewrite call_response_json, Hbody, Hsub; reflexivity.
Qed.

(** X13.  In the llama3 step the handler of an HTTP error whose body decodes
    to an object prints the [error] field, or [Unknown error] when the
    object has none, and the step ends normally. *)
Theorem llama3_block_defaults_error
    (client : HermesClient) (w : World) (r : Response) (m : gmap string json) :
  server (issued w) (llm_request client "llama3" llama3_prompt) = inr r →
  400 ≤ status_code r < 600 →
  json_loads (text r) = inr (JObject m) →
  llama3_block client w =
    (Finished (),
     {| issued := issued w ++ [llm_request client "llama3" llama3_prompt];
        printed := printed w ++
          [ "Generating text with Llama3 model...";
            "✗ Error: "
              +:+ match m !! "error" with
                  | Some x => format_value py_repr x
                  | None => "Unknown error"
                  end
              +:+ newline ] |}).
Proof.
  intros Hsrv Herr Hbody. unfold llama3_block. run_script.
  rewrite Hsrv, (outcome_error json_loads r Herr).
  rewrite call_response_json, Hbody. unfold dict_get.
  destruct (m !! "error"); cbn; by rewrite <- app_assoc.
Qed.

(** X14.  When the three calls succeed and the answers have the fields
    [main] reads, [main] issues the three requests in order, prints the
    eight lines of the report and returns normally. *)
Theorem main_happy_path
    (w : World) (r1 r2 r3 : Response) (m1 mem m2 m3 : gmap string json)
    (a b total x2 x3 : json) (t : string) :
  let s := status_request localhost in
  let g := llm_request localhost "gemma" gemma_prompt in
  let l := llm_request localhost "llama3" llama3_prompt in
  server (issued w) s = inr r1 →
  ¬ (400 ≤ status_code r1 < 600) →
  json_loads (text r1) = inr (JObject m1) →
  m1 !! "status" = Some a →
  m1 !! "schedulers" = Some b →
  m1 !! "memory" = Some (JObject mem) →
  mem !! "total" = Some total →
  format_comma total = inr t →
  server (issued w ++ [s]) g = inr r2 →
  ¬ (400 ≤ status_code r2 < 600) →
  json_loads (text r2) = inr (JObject m2) →
  m2 !! "result" = Some x2 →
  server (issued w ++ [s; g]) l = inr r3 →
  ¬ (400 ≤ status_code r3 < 600) →
  json_loads (text r3) = inr (JObject m3) →
  m3 !! "result" = Some x3 →
  main w =
    (Finished (),
     {| issued := issued w ++ [s; g; l];
        printed := printed w ++
          [ "Checking system status...";
            "✓ Status: " +:+ format_value py_repr a;
            "✓ Schedulers: " +:+ format_value py_repr b;
            "✓ Total Memory: " +:+ t +:+ " bytes" +:+ newline;
            "Generating text with Gemma model...";
            "✓ Response: " +:+ format_value py_repr x2 +:+ newline;
            "Generating text with Llama3 model...";
            "✓ Response: " +:+ format_value py_repr x3 +:+ newline ] |}).
Proof.
  intros s g l Hs1 Hc1 Hb1 Ha Hb Hmem Htotal Ht Hs2 Hc2 Hb2 Hx2 Hs3 Hc3 Hb3 Hx3.
  replace (issued w ++ [s; g]) with ((issued w ++ [s]) ++ [g]) in Hs3
    by (by rewrite <- app_assoc).
  rewrite main_unfold.
  unfold status_block. run_script. fold s.
  rewrite Hs1, (outcome_decoded json_loads r1 Hc1), Hb1.
  unfold subscript. rewrite Ha, Hb, Hmem, Htotal, Ht.
  cbn [issued printed].
  unfold gemma_block. run_script. fold g.
  rewrite Hs2, (outcome_decoded json_loads r2 Hc2), Hb2.
  unfold subscript. rewrite Hx2.
  cbn [issued printed].
  unfold llama3_block. run_script. fold l.
  rewrite Hs3, (outcome_decoded json_loads r3 Hc3), Hb3.
  unfold subscript. rewrite Hx3.
  cbn [issued printed].
  rewrite <- !app_assoc. reflexivity.
Qed.

End MainProperties.

(** ** Worked runs of [main] *)

Lemma main_lets_no_http_error_through_witness :
  (∃ b : BuiltinError, Builtin (KeyError "status") = Builtin b) ∨
  (∃ msg doc : string,
     Builtin (KeyError "status") = RequestsError (JSONDecodeError msg doc)).
Proof.
  apply (main_lets_no_http_error_through (mock_loads mock_table)
           (always (inr (status_response 200 "OK" "{}")))
           mock_repr mock_format_comma true fresh).
  vm_compute. reflexivity.
Defined.

Lemma main_stops_after_failed_status_witness :
  main (mock_loads mock_table) (always (inl read_timeout))
       mock_repr mock_format_comma true fresh =
    (Finished (),
     {| issued := [status_request localhost];
        printed := [ "Checking system status...";
                     "✗ Failed to get status: Read timed out." +:+ newline ] |}).
Proof.
  apply (main_stops_after_failed_status (mock_loads mock_table)
           (always (inl read_timeout)) mock_repr mock_format_comma true
           fresh (RequestFailed read_timeout));
    reflexivity.
Defined.

Lemma main_crashes_on_missing_status_key_witness :
  ∃ (key : string) (out : list string),
    (∅ : gmap string json) !! key = None ∧
    main (mock_loads mock_table)
         (always (inr (status_response 200 "OK" "{}")))
         mock_repr mock_format_comma true fresh =
      (Crashed (Builtin (KeyError key)),
       {| issued := [] ++ [status_request localhost];
          printed := [] ++ "Checking system status..." :: out |}).
Proof.
  apply (main_crashes_on_missing_status_key (mock_loads mock_table)
           (always (inr (status_response 200 "OK" "{}")))
           mock_repr mock_format_comma true fresh
           (status_response 200 "OK" "{}") ∅);
    [reflexivity | simpl; lia | reflexivity | by left].
Defined.

Lemma gemma_block_reports_and_goes_on_witness :
  let r := llm_response 404 "Not Found" "<html>no such model</html>" in
  gemma_block (mock_loads mock_table) (always (inr r)) mock_repr true
              localhost fresh =
    (Finished (),
     {| issued := [] ++ [llm_request localhost "gemma" gemma_prompt];
        printed := [] ++
          [ "Generating text with Gemma model...";
            "✗ HTTP error: " +:+ http_error_msg r +:+ newline ] |}).
Proof.
  cbv zeta.
  apply (gemma_block_reports_and_goes_on (mock_loads mock_table)
           (always (inr (llm_response 404 "Not Found"
                           "<html>no such model</html>")))
           mock_repr true localhost fresh
           (HTTPError
              (http_error_msg (llm_response 404 "Not Found"
                                 "<html>no such model</html>"))
              (llm_response 404 "Not Found" "<html>no such model</html>")));
    [reflexivity | reflexivity |].
  intros msg r [= _ <-]. simpl. lia.
Defined.

Lemma gemma_block_needs_error_body_witness :
  let r := llm_response 500 "Internal Server Error" "<html>oops</html>" in
  gemma_block (mock_loads mock_table) (always (inr r)) mock_repr true
              localhost fresh =
    (Crashed (RequestsError (JSONDecodeError "Expecting value" (text r))),
     {| issued := [] ++ [llm_request localhost "gemma" gemma_prompt];
        printed := [] ++ ["Generating text with Gemma model..."] |}).
Proof.
  cbv zeta.
  destruct (gemma_block_needs_error_body (mock_loads mock_table)
              (always (inr (llm_response 500 "Internal Server Error"
                              "<html>oops</html>")))
              mock_repr true localhost fresh
              (llm_response 500 "Internal Server Error" "<html>oops</html>"))
    as [Hdecode _]; [reflexivity | by right |].
  apply Hdecode. reflexivity.
Defined.

Lemma llama3_block_defaults_error_witness :
  llama3_block (mock_loads mock_table)
               (always (inr (llm_response 500 "Internal Server Error" "{}")))
               mock_repr true localhost fresh =
    (Finished (),
     {| issued := [] ++ [llm_request localhost "llama3" llama3_prompt];
        printed := [] ++
          [ "Generating text with Llama3 model...";
            "✗ Error: " +:+ "Unknown error" +:+ newline ] |}).
Proof.
  etrans.
  - apply (llama3_block_defaults_error (mock_loads mock_table)
             (always (inr (llm_response 500 "Internal Server Error" "{}")))
             mock_repr true localhost fresh
             (llm_response 500 "Internal Server Error" "{}") ∅);
      [reflexivity | simpl; lia | reflexivity].
  - vm_compute. reflexivity.
Defined.

Lemma main_happy_path_witness :
  let answer := llm_response 200 "OK" (result_doc " Hello  ") in
  let srv := scripted [ inr (status_response 200 "OK" status_doc);
                        inr answer; inr answer ] in
  main (mock_loads mock_table) srv mock_repr mock_format_comma true fresh =
    (Finished (),
     {| issued := [ status_request localhost;
                    llm_request localhost "gemma" gemma_prompt;
                    llm_request localhost "llama3" llama3_prompt ];
        printed :=
          [ "Checking system status...";
            "✓ Status: ok";
            "✓ Schedulers: 2";
            "✓ Total Memory: 1,048,576 bytes" +:+ newline;
            "Generating text with Gemma model...";
            "✓ Response:  Hello  " +:+ newline;
            "Generating text with Llama3 model...";
            "✓ Response:  Hello  " +:+ newline ] |}).
Proof.
  cbv zeta.
  apply (main_happy_path (mock_loads mock_table)
           (scripted [ inr (status_response 200 "OK" status_doc);
                       inr (llm_response 200 "OK" (result_doc " Hello  "));
                       inr (llm_response 200 "OK" (result_doc " Hello  ")) ])
           mock_repr mock_format_comma true fresh
           (status_response 200 "OK" status_doc)
           (llm_response 200 "OK" (result_doc " Hello  "))
           (llm_response 200 "OK" (result_doc " Hello  "))
           {[ "status" := JString "ok"; "schedulers" := JInt 2;
              "memory" := JObject {[ "total" := JInt 1048576 ]} ]}
           {[ "total" := JInt 1048576 ]}
           {[ "result" := JString " Hello  " ]}
           {[ "result" := JString " Hello  " ]}
           (JString "ok") (JInt 2) (JInt 1048576)
           (JString " Hello  ") (JString " Hello  ") "1,048,576");
    first [ reflexivity | simpl; lia ].
Defined.
